(** * libs/acl/opentelemetry/provider.go

    A shallow embedding of the OpenTelemetry provider glue: [OtelProvider.Shutdown],
    [NewOpenTelemetryProvider] and [newResource].

    The Go file owns no data structure of its own.  Everything it touches
    belongs to imported packages (the OpenTelemetry SDK, its OTLP/gRPC
    exporters, gRPC credentials).  Those packages are represented by

    - a class [Types] of opaque Go types,
    - inductive types for the option values the code builds
      ([WithEndpoint], [WithInsecure], ...), which are plain data, and
    - a class [World] of the imported functions whose outcome the code
      observes or passes on (constructors, [Shutdown], [resource.New]).

    Every call into an imported package is recorded, in program order, in
    an event log, so that statements such as "no exporter is constructed"
    or "exactly one shutdown is invoked" are statements about the log. *)

From stdpp Require Import base strings gmap list.
From Stdlib Require Import ZArith Lia.

Set Default Proof Using "Type".
Local Open Scope Z_scope.
Local Open Scope list_scope.

(** ** Go values *)

(** A non-nil Go [error]; the nil error is [None : option error].  Only the
    message of an error is ever observed ([%v] in [fmt.Errorf]). *)
Inductive error : Type :=
| errorString (s : string).

Definition Error (e : error) : string :=
  match e with errorString s => s end.

(** [fmt.Errorf(prefix + "%v", err)] for a non-nil [err]: the verb prints
    [err.Error()]. *)
Definition fmt_Errorf (prefix : string) (err : error) : error :=
  errorString (prefix +:+ Error err).

(** [time.Duration] counts nanoseconds. *)
Definition time_Second : Z := 1000000000.

(** ** Opaque types of the imported packages

    A value of one of these types is a Go value of the named type.  Where
    the code compares a pointer with nil ([*resource.Resource],
    [*sdktrace.TracerProvider], [*metric.MeterProvider]) the class type is
    the pointee and the pointer is an [option]. *)
Class Types : Type := {
  context_Context : Type;          (* context.Context *)
  x509_CertPool : Type;            (* crypto/x509.CertPool *)
  resource_Resource : Type;        (* resource.Resource *)
  resource_Detector : Type;        (* resource.Detector *)
  attribute_KeyValue : Type;       (* attribute.KeyValue *)
  sdktrace_Sampler : Type;         (* sdktrace.Sampler *)
  sdktrace_SpanProcessor : Type;   (* sdktrace.SpanProcessor *)
  sdktrace_TracerProvider : Type;  (* sdktrace.TracerProvider *)
  otlptrace_Client : Type;         (* otlptrace.Client *)
  otlptrace_Exporter : Type;       (* *otlptrace.Exporter *)
  otlpmetricgrpc_Exporter : Type;  (* *otlpmetricgrpc.Exporter *)
  metric_Reader : Type;            (* metric.Reader *)
  metric_MeterProvider : Type;     (* metric.MeterProvider *)
}.

Section Data.
Context `{Types}.

(** [credentials.NewClientTLSFromCert(cp, serverNameOverride)]. *)
Record credentials_TransportCredentials : Type := NewClientTLSFromCert {
  certPool : option x509_CertPool;
  serverNameOverride : string;
}.

(** [otlptracegrpc.Option] values. *)
Inductive otlptracegrpc_Option : Type :=
| otlptracegrpc_WithEndpoint (endpoint : string)
| otlptracegrpc_WithHeaders (headers : gmap string string)
| otlptracegrpc_WithInsecure
| otlptracegrpc_WithTLSCredentials (creds : credentials_TransportCredentials).

(** [otlpmetricgrpc.Option] values. *)
Inductive otlpmetricgrpc_Option : Type :=
| otlpmetricgrpc_WithEndpoint (endpoint : string)
| otlpmetricgrpc_WithHeaders (headers : gmap string string)
| otlpmetricgrpc_WithInsecure
| otlpmetricgrpc_WithTLSCredentials (creds : credentials_TransportCredentials).

(** [resource.Option] values. *)
Inductive resource_Option : Type :=
| resource_WithHost
| resource_WithFromEnv
| resource_WithProcessPID
| resource_WithTelemetrySDK
| resource_WithDetectors (detectors : list resource_Detector)
| resource_WithAttributes (attributes : list attribute_KeyValue).

(** [sdktrace.TracerProviderOption] values. *)
Inductive sdktrace_TracerProviderOption : Type :=
| sdktrace_WithSampler (s : sdktrace_Sampler)
| sdktrace_WithResource (r : option resource_Resource)
| sdktrace_WithSpanProcessor (sp : sdktrace_SpanProcessor).

(** [metric.PeriodicReaderOption] values. *)
Inductive metric_PeriodicReaderOption : Type :=
| metric_WithInterval (d : Z).

(** [metric.Option] values. *)
Inductive metric_Option : Type :=
| metric_WithReader (r : metric_Reader)
| metric_WithResource (r : option resource_Resource).

(** Modelled from the spec: the [config] struct is declared outside this
    file (the options builder); its fields are the ones the code reads and
    the spec's data model lists. *)
Record config : Type := {
  enableTracing : bool;
  enableMetrics : bool;
  exportEndpoint : string;
  exportHeaders : gmap string string;
  exportInsecure : bool;
  exportTLSInsecure : bool;
  sampler : sdktrace_Sampler;
  resource : option resource_Resource;
  resourceDetectors : list resource_Detector;
  resourceAttributes : list attribute_KeyValue;
  sdkTracerProvider : option sdktrace_TracerProvider;
  meterProvider : option metric_MeterProvider;
}.

(** [type OtelProvider struct]. *)
Record OtelProvider : Type := {
  TracerProvider : option sdktrace_TracerProvider;
  MeterProvider : option metric_MeterProvider;
}.

(** ** Calls into the imported packages *)
Inductive Event : Type :=
| resource_New_called (ctx : context_Context) (opts : list resource_Option)
| resource_Default_called
| otlptracegrpc_NewClient_called (opts : list otlptracegrpc_Option)
| otlptrace_New_called (ctx : context_Context) (client : otlptrace_Client)
| sdktrace_NewBatchSpanProcessor_called (exp : otlptrace_Exporter)
| sdktrace_NewTracerProvider_called (opts : list sdktrace_TracerProviderOption)
| otlpmetricgrpc_New_called (ctx : context_Context) (opts : list otlpmetricgrpc_Option)
| metric_NewPeriodicReader_called (exp : otlpmetricgrpc_Exporter)
    (opts : list metric_PeriodicReaderOption)
| metric_NewMeterProvider_called (opts : list metric_Option)
| TracerProvider_Shutdown_called (tp : sdktrace_TracerProvider) (ctx : context_Context)
| MeterProvider_Shutdown_called (mp : metric_MeterProvider) (ctx : context_Context)
| otel_Handle_called (err : error).

(** ** Function bodies

    A statement of a Go function body either falls through with a value or
    has executed [return r]; both carry the calls made so far. *)
Inductive Flow (R A : Type) : Type :=
| Next (a : A)
| Returned (r : R).
Global Arguments Next {R A} a.
Global Arguments Returned {R A} r.

Definition Body (R A : Type) : Type := Flow R A * list Event.

Definition pure {R A} (a : A) : Body R A := (Next a, []).

Definition return_ {R A} (r : R) : Body R A := (Returned r, []).

Definition call {R A} (e : Event) (result : A) : Body R A := (Next result, [e]).

Definition bind {R A B} (m : Body R A) (k : A -> Body R B) : Body R B :=
  match m with
  | (Next a, l) => let (f, l') := k a in (f, l ++ l')
  | (Returned r, l) => (Returned r, l)
  end.

(** The whole body of a function with result type [R]: its last statement
    is a [return]. *)
Definition run {R} (m : Body R R) : R * list Event :=
  match m with
  | (Next r, l) => (r, l)
  | (Returned r, l) => (r, l)
  end.

(** Calling a function from inside another body. *)
Definition invoke {R A} (m : A * list Event) : Body R A := (Next m.1, m.2).

End Data.

Declare Scope body_scope.
Delimit Scope body_scope with body.
Notation "x <- m ;; k" := (bind m (fun x => k))
  (at level 100, m at next level, right associativity) : body_scope.
Notation "m ;;; k" := (bind m (fun _ => k))
  (at level 100, right associativity) : body_scope.
Local Open Scope body_scope.

(** ** The imported functions

    Each function is called at most once in a run of [Shutdown] or of
    [NewOpenTelemetryProvider], so a function of the arguments describes
    every outcome a run can observe.  Constructors that cannot fail return
    a non-nil object, as the SDK's do. *)
Class World `{Types} : Type := {
  (** Modelled from the spec: [Option] and [newConfig] belong to the options
      builder, which is outside this file; [newConfig] resolves the options
      over the defaults into a [config]. *)
  Option : Type;
  newConfig : list Option -> config;

  context_TODO : context_Context;
  context_Background : context_Context;

  resource_New :
    context_Context -> list resource_Option -> option resource_Resource * option error;
  resource_Default : resource_Resource;

  otlptracegrpc_NewClient : list otlptracegrpc_Option -> otlptrace_Client;
  otlptrace_New :
    context_Context -> otlptrace_Client -> otlptrace_Exporter * option error;
  sdktrace_NewBatchSpanProcessor : otlptrace_Exporter -> sdktrace_SpanProcessor;
  sdktrace_NewTracerProvider :
    list sdktrace_TracerProviderOption -> sdktrace_TracerProvider;

  otlpmetricgrpc_New :
    context_Context -> list otlpmetricgrpc_Option -> otlpmetricgrpc_Exporter * option error;
  metric_NewPeriodicReader :
    otlpmetricgrpc_Exporter -> list metric_PeriodicReaderOption -> metric_Reader;
  metric_NewMeterProvider : list metric_Option -> metric_MeterProvider;

  TracerProvider_Shutdown : sdktrace_TracerProvider -> context_Context -> option error;
  MeterProvider_Shutdown : metric_MeterProvider -> context_Context -> option error;
}.

Section Provider.
Context `{World}.

(** [otel.Handle(err)] when [err != nil]. *)
Definition handle_if_error {R} (err : option error) : Body R unit :=
  match err with
  | Some e => call (otel_Handle_called e) tt
  | None => pure tt
  end.

(** [func (p *OtelProvider) Shutdown(ctx context.Context) error], for a
    non-nil receiver.  The single variable [err] is assigned by each
    provider shutdown that runs. *)
Definition Shutdown (p : OtelProvider) (ctx : context_Context)
  : option error * list Event :=
  run (
    let err := None in
    err <- match TracerProvider p with
           | Some tp =>
               err <- call (TracerProvider_Shutdown_called tp ctx)
                           (TracerProvider_Shutdown tp ctx) ;;
               handle_if_error err ;;;
               pure err
           | None => pure err
           end ;;
    err <- match MeterProvider p with
           | Some mp =>
               err <- call (MeterProvider_Shutdown_called mp ctx)
                           (MeterProvider_Shutdown mp ctx) ;;
               handle_if_error err ;;;
               pure err
           | None => pure err
           end ;;
    return_ err).

(** [p != nil] for a pointer. *)
Definition non_nil {A} (p : option A) : bool :=
  match p with Some _ => true | None => false end.

(** The arguments of [resource.New] at lines 156-161. *)
Definition detection (cfg : config) : list resource_Option :=
  [ resource_WithHost;
    resource_WithFromEnv;
    resource_WithProcessPID;
    resource_WithTelemetrySDK;
    resource_WithDetectors (resourceDetectors cfg);
    resource_WithAttributes (resourceAttributes cfg) ].

(** [func newResource(cfg *config) *resource.Resource]. *)
Definition newResource (cfg : config) : option resource_Resource * list Event :=
  run (
    (if non_nil (resource cfg) then return_ (resource cfg) else pure tt) ;;;
    let opts := detection cfg in
    r <- call (resource_New_called context_Background opts)
              (resource_New context_Background opts) ;;
    let (res, err) := r in
    (if non_nil err
     then d <- call resource_Default_called resource_Default ;; return_ (Some d)
     else pure tt) ;;;
    return_ res).

(** The local slice [traceClientOpts] once lines 78-89 have run. *)
Definition traceClientOpts (cfg : config) : list otlptracegrpc_Option :=
  let traceClientOpts := [] in
  let traceClientOpts :=
    if bool_decide (exportEndpoint cfg <> EmptyString)
    then traceClientOpts ++ [otlptracegrpc_WithEndpoint (exportEndpoint cfg)]
    else traceClientOpts in
  let traceClientOpts :=
    if bool_decide (0 < size (exportHeaders cfg))%nat
    then traceClientOpts ++ [otlptracegrpc_WithHeaders (exportHeaders cfg)]
    else traceClientOpts in
  if exportInsecure cfg
  then traceClientOpts ++ [otlptracegrpc_WithInsecure]
  else if exportTLSInsecure cfg
  then traceClientOpts ++
         [otlptracegrpc_WithTLSCredentials (NewClientTLSFromCert None EmptyString)]
  else traceClientOpts.

(** The local slice [metricsClientOpts] once lines 116-127 have run. *)
Definition metricsClientOpts (cfg : config) : list otlpmetricgrpc_Option :=
  let metricsClientOpts := [] in
  let metricsClientOpts :=
    if bool_decide (exportEndpoint cfg <> EmptyString)
    then metricsClientOpts ++ [otlpmetricgrpc_WithEndpoint (exportEndpoint cfg)]
    else metricsClientOpts in
  let metricsClientOpts :=
    if bool_decide (0 < size (exportHeaders cfg))%nat
    then metricsClientOpts ++ [otlpmetricgrpc_WithHeaders (exportHeaders cfg)]
    else metricsClientOpts in
  if exportInsecure cfg
  then metricsClientOpts ++ [otlpmetricgrpc_WithInsecure]
  else if exportTLSInsecure cfg
  then metricsClientOpts ++
         [otlpmetricgrpc_WithTLSCredentials (NewClientTLSFromCert None EmptyString)]
  else metricsClientOpts.

Definition trace_exporter_failure : string := "failed to create otlp trace exporter: ".
Definition metric_exporter_failure : string := "failed to create otlp metric exporter: ".

(** What [NewOpenTelemetryProvider] returns: a [*OtelProvider] and an [error]. *)
Definition Result : Type := option OtelProvider * option error.

(** The [// Tracing] block, lines 76-110: the value of [tracerProvider]
    after it, unless the block returns. *)
Definition tracing (ctx : context_Context) (cfg : config) (res : option resource_Resource)
  : Body Result (option sdktrace_TracerProvider) :=
  let tracerProvider := None in
  if enableTracing cfg then
    let traceClientOpts := traceClientOpts cfg in
    let tracerProvider := sdkTracerProvider cfg in
    if non_nil tracerProvider then pure tracerProvider
    else
      traceClient <- call (otlptracegrpc_NewClient_called traceClientOpts)
                          (otlptracegrpc_NewClient traceClientOpts) ;;
      r <- call (otlptrace_New_called ctx traceClient) (otlptrace_New ctx traceClient) ;;
      let (traceExp, err) := r in
      match err with
      | Some e => return_ (None, Some (fmt_Errorf trace_exporter_failure e))
      | None =>
          bsp <- call (sdktrace_NewBatchSpanProcessor_called traceExp)
                      (sdktrace_NewBatchSpanProcessor traceExp) ;;
          let opts :=
            [ sdktrace_WithSampler (sampler cfg);
              sdktrace_WithResource res;
              sdktrace_WithSpanProcessor bsp ] in
          tp <- call (sdktrace_NewTracerProvider_called opts)
                     (sdktrace_NewTracerProvider opts) ;;
          pure (Some tp)
      end
  else pure tracerProvider.

(** The [// Metrics] block, lines 113-141: the value of [meterProvider]
    after it, unless the block returns. *)
Definition metrics (cfg : config) (res : option resource_Resource)
  : Body Result (option metric_MeterProvider) :=
  let meterProvider_ := None in
  if enableMetrics cfg then
    let metricsClientOpts := metricsClientOpts cfg in
    let meterProvider_ := meterProvider cfg in
    if non_nil meterProvider_ then pure meterProvider_
    else
      r <- call (otlpmetricgrpc_New_called context_Background metricsClientOpts)
                (otlpmetricgrpc_New context_Background metricsClientOpts) ;;
      let (metricExp, err) := r in
      match err with
      | Some e => return_ (None, Some (fmt_Errorf metric_exporter_failure e))
      | None =>
          let interval := [metric_WithInterval (15 * time_Second)] in
          rd <- call (metric_NewPeriodicReader_called metricExp interval)
                     (metric_NewPeriodicReader metricExp interval) ;;
          let reader := metric_WithReader rd in
          let opts := [reader; metric_WithResource res] in
          mp <- call (metric_NewMeterProvider_called opts)
                     (metric_NewMeterProvider opts) ;;
          pure (Some mp)
      end
  else pure meterProvider_.

(** [func NewOpenTelemetryProvider(opts ...Option)], returning a
    [*OtelProvider] and an [error]. *)
Definition NewOpenTelemetryProvider (opts : list Option) : Result * list Event :=
  run (
    let ctx := context_TODO in
    let cfg := newConfig opts in
    (if negb (enableTracing cfg) && negb (enableMetrics cfg)
     then return_ (None, None) else pure tt) ;;;
    res <- invoke (newResource cfg) ;;
    tracerProvider <- tracing ctx cfg res ;;
    meterProvider <- metrics cfg res ;;
    return_ (Some {| TracerProvider := tracerProvider;
                     MeterProvider := meterProvider |}, None)).

(** ** Reading a log *)

(** The calls of a log that are provider shutdowns. *)
Definition is_shutdown (e : Event) : bool :=
  match e with
  | TracerProvider_Shutdown_called _ _ | MeterProvider_Shutdown_called _ _ => true
  | _ => false
  end.

Definition shutdowns (log : list Event) : list Event := List.filter is_shutdown log.

(** The errors handed to [otel.Handle], in order. *)
Definition handled (log : list Event) : list error :=
  omap (fun e => match e with otel_Handle_called err => Some err | _ => None end) log.

(** The [otel.Handle] call, if any, that follows a provider shutdown with
    outcome [err]. *)
Definition report (err : option error) : list Event :=
  match err with
  | Some e => [otel_Handle_called e]
  | None => []
  end.

(** The calls that take part in building a trace exporter and the provider
    on top of it. *)
Definition is_trace_construction (e : Event) : bool :=
  match e with
  | otlptracegrpc_NewClient_called _ | otlptrace_New_called _ _
  | sdktrace_NewBatchSpanProcessor_called _ | sdktrace_NewTracerProvider_called _ => true
  | _ => false
  end.

(** The trace exporter was constructed in this run and construction failed
    with [e]. *)
Definition trace_exporter_failed (log : list Event) (e : error) : Prop :=
  exists ctx client,
    In (otlptrace_New_called ctx client) log /\ (otlptrace_New ctx client).2 = Some e.

(** The metric exporter was constructed in this run and construction failed
    with [e]. *)
Definition metric_exporter_failed (log : list Event) (e : error) : Prop :=
  exists ctx opts,
    In (otlpmetricgrpc_New_called ctx opts) log /\ (otlpmetricgrpc_New ctx opts).2 = Some e.

(** Resource detection ran in this run and failed with [e]. *)
Definition resource_detection_failed (log : list Event) (e : error) : Prop :=
  exists ctx opts,
    In (resource_New_called ctx opts) log /\ (resource_New ctx opts).2 = Some e.

(** ** The runs of each block

    The possible runs of [newResource], of the tracing block and of the
    metrics block, one constructor per path through the code; the lemmas
    [newResource_cases], [tracing_cases] and [metrics_cases] below show that
    the code always takes one of them. *)
Inductive newResource_run (cfg : config) : option resource_Resource * list Event -> Prop :=
| newResource_prebuilt r :
    resource cfg = Some r ->
    newResource_run cfg (Some r, [])
| newResource_fallback res e :
    resource cfg = None ->
    resource_New context_Background (detection cfg) = (res, Some e) ->
    newResource_run cfg
      (Some resource_Default,
       [resource_New_called context_Background (detection cfg); resource_Default_called])
| newResource_detected res :
    resource cfg = None ->
    resource_New context_Background (detection cfg) = (res, None) ->
    newResource_run cfg (res, [resource_New_called context_Background (detection cfg)]).

Inductive tracing_run (ctx : context_Context) (cfg : config) (res : option resource_Resource)
  : Body Result (option sdktrace_TracerProvider) -> Prop :=
| tracing_off :
    enableTracing cfg = false ->
    tracing_run ctx cfg res (Next None, [])
| tracing_override tp :
    enableTracing cfg = true ->
    sdkTracerProvider cfg = Some tp ->
    tracing_run ctx cfg res (Next (Some tp), [])
| tracing_failed exp e :
    enableTracing cfg = true ->
    sdkTracerProvider cfg = None ->
    otlptrace_New ctx (otlptracegrpc_NewClient (traceClientOpts cfg)) = (exp, Some e) ->
    tracing_run ctx cfg res
      (Returned (None, Some (fmt_Errorf trace_exporter_failure e)),
       [otlptracegrpc_NewClient_called (traceClientOpts cfg);
        otlptrace_New_called ctx (otlptracegrpc_NewClient (traceClientOpts cfg))])
| tracing_built exp :
    enableTracing cfg = true ->
    sdkTracerProvider cfg = None ->
    otlptrace_New ctx (otlptracegrpc_NewClient (traceClientOpts cfg)) = (exp, None) ->
    let opts := [sdktrace_WithSampler (sampler cfg); sdktrace_WithResource res;
                 sdktrace_WithSpanProcessor (sdktrace_NewBatchSpanProcessor exp)] in
    tracing_run ctx cfg res
      (Next (Some (sdktrace_NewTracerProvider opts)),
       [otlptracegrpc_NewClient_called (traceClientOpts cfg);
        otlptrace_New_called ctx (otlptracegrpc_NewClient (traceClientOpts cfg));
        sdktrace_NewBatchSpanProcessor_called exp;
        sdktrace_NewTracerProvider_called opts]).

Inductive metrics_run (cfg : config) (res : option resource_Resource)
  : Body Result (option metric_MeterProvider) -> Prop :=
| metrics_off :
    enableMetrics cfg = false ->
    metrics_run cfg res (Next None, [])
| metrics_override mp :
    enableMetrics cfg = true ->
    meterProvider cfg = Some mp ->
    metrics_run cfg res (Next (Some mp), [])
| metrics_failed exp e :
    enableMetrics cfg = true ->
    meterProvider cfg = None ->
    otlpmetricgrpc_New context_Background (metricsClientOpts cfg) = (exp, Some e) ->
    metrics_run cfg res
      (Returned (None, Some (fmt_Errorf metric_exporter_failure e)),
       [otlpmetricgrpc_New_called context_Background (metricsClientOpts cfg)])
| metrics_built exp :
    enableMetrics cfg = true ->
    meterProvider cfg = None ->
    otlpmetricgrpc_New context_Background (metricsClientOpts cfg) = (exp, None) ->
    let interval := [metric_WithInterval (15 * time_Second)] in
    let opts := [metric_WithReader (metric_NewPeriodicReader exp interval);
                 metric_WithResource res] in
    metrics_run cfg res
      (Next (Some (metric_NewMeterProvider opts)),
       [otlpmetricgrpc_New_called context_Background (metricsClientOpts cfg);
        metric_NewPeriodicReader_called exp interval;
        metric_NewMeterProvider_called opts]).

End Provider.

(** ** A scripted world

    Concrete packages to run the code on: every opaque type is [nat], the
    options are functional options over an all-off default configuration,
    and the outcome of each fallible call is scripted. *)
Definition natTypes : Types := {|
  context_Context := nat;
  x509_CertPool := nat;
  resource_Resource := nat;
  resource_Detector := nat;
  attribute_KeyValue := nat;
  sdktrace_Sampler := nat;
  sdktrace_SpanProcessor := nat;
  sdktrace_TracerProvider := nat;
  otlptrace_Client := nat;
  otlptrace_Exporter := nat;
  otlpmetricgrpc_Exporter := nat;
  metric_Reader := nat;
  metric_MeterProvider := nat;
|}.

Record Script : Type := {
  detection_error : option error;
  trace_exporter_error : option error;
  metric_exporter_error : option error;
  trace_shutdown_error : option error;
  meter_shutdown_error : option error;
}.

Definition defaultConfig : @config natTypes := {|
  enableTracing := false;
  enableMetrics := false;
  exportEndpoint := EmptyString;
  exportHeaders := ∅;
  exportInsecure := false;
  exportTLSInsecure := false;
  sampler := (0%nat : @sdktrace_Sampler natTypes);
  resource := None;
  resourceDetectors := [];
  resourceAttributes := [];
  sdkTracerProvider := None;
  meterProvider := None;
|}.

Definition scripted (s : Script) : @World natTypes := {|
  Option := @config natTypes -> @config natTypes;
  newConfig := fun opts => fold_left (fun cfg o => o cfg) opts defaultConfig;
  context_TODO := 0%nat;
  context_Background := 1%nat;
  resource_New := fun _ _ =>
    match detection_error s with
    | Some e => (None, Some e)
    | None => (Some 10%nat, None)
    end;
  resource_Default := 11%nat;
  otlptracegrpc_NewClient := fun _ => 20%nat;
  otlptrace_New := fun _ _ => (21%nat, trace_exporter_error s);
  sdktrace_NewBatchSpanProcessor := fun _ => 22%nat;
  sdktrace_NewTracerProvider := fun _ => 23%nat;
  otlpmetricgrpc_New := fun _ _ => (30%nat, metric_exporter_error s);
  metric_NewPeriodicReader := fun _ _ => 31%nat;
  metric_NewMeterProvider := fun _ => 32%nat;
  TracerProvider_Shutdown := fun _ _ => trace_shutdown_error s;
  MeterProvider_Shutdown := fun _ _ => meter_shutdown_error s;
|}.

(** Every fallible call succeeds. *)
Definition all_fine : Script := {|
  detection_error := None;
  trace_exporter_error := None;
  metric_exporter_error := None;
  trace_shutdown_error := None;
  meter_shutdown_error := None;
|}.

(** [WithX] functional options of the scripted world. *)
Definition use (cfg : @config natTypes) : @config natTypes -> @config natTypes :=
  fun _ => cfg.

(** A pair holding the pre-built providers 7 and 8. *)
Definition bothProviders : @OtelProvider natTypes :=
  @Build_OtelProvider natTypes (Some 7%nat) (Some 8%nat).

(** A pair holding only the trace provider 7. *)
Definition traceOnly : @OtelProvider natTypes :=
  @Build_OtelProvider natTypes (Some 7%nat) None.

(** Tracing on with the override provider 7, metrics on without override. *)
Definition overrideAndMetrics : @config natTypes := {|
  enableTracing := true;
  enableMetrics := true;
  exportEndpoint := "collector:4317";
  exportHeaders := ∅;
  exportInsecure := false;
  exportTLSInsecure := false;
  sampler := (0%nat : @sdktrace_Sampler natTypes);
  resource := None;
  resourceDetectors := [];
  resourceAttributes := [];
  sdkTracerProvider := Some 7%nat;
  meterProvider := None;
|}.

(** Both signals on, nothing pre-built, with the given insecurity flags. *)
Definition bothEnabled (insecure tlsInsecure : bool) : @config natTypes := {|
  enableTracing := true;
  enableMetrics := true;
  exportEndpoint := "collector:4317";
  exportHeaders := {[ "authorization" := "token" ]};
  exportInsecure := insecure;
  exportTLSInsecure := tlsInsecure;
  sampler := (0%nat : @sdktrace_Sampler natTypes);
  resource := None;
  resourceDetectors := [];
  resourceAttributes := [];
  sdkTracerProvider := None;
  meterProvider := None;
|}.

(** Telemetry switched off, every other option set. *)
Definition disabled : @config natTypes := {|
  enableTracing := false;
  enableMetrics := false;
  exportEndpoint := "collector:4317";
  exportHeaders := {[ "authorization" := "token" ]};
  exportInsecure := true;
  exportTLSInsecure := true;
  sampler := (0%nat : @sdktrace_Sampler natTypes);
  resource := Some 5%nat;
  resourceDetectors := [1%nat];
  resourceAttributes := [2%nat];
  sdkTracerProvider := Some 7%nat;
  meterProvider := Some 8%nat;
|}.

(** Tracing only, with a pre-built resource. *)
Definition withResource : @config natTypes := {|
  enableTracing := true;
  enableMetrics := false;
  exportEndpoint := EmptyString;
  exportHeaders := ∅;
  exportInsecure := true;
  exportTLSInsecure := false;
  sampler := (0%nat : @sdktrace_Sampler natTypes);
  resource := Some 5%nat;
  resourceDetectors := [1%nat];
  resourceAttributes := [];
  sdkTracerProvider := None;
  meterProvider := None;
|}.

Definition broken (msg : string) : option error := Some (errorString msg).

(** The trace provider's shutdown fails, everything else succeeds. *)
Definition traceShutdownFails : Script := {|
  detection_error := None;
  trace_exporter_error := None;
  metric_exporter_error := None;
  trace_shutdown_error := broken "flush timed out";
  meter_shutdown_error := None;
|}.

(** Resource detection fails, everything else succeeds. *)
Definition detectionFails : Script := {|
  detection_error := broken "conflicting Schema URL";
  trace_exporter_error := None;
  metric_exporter_error := None;
  trace_shutdown_error := None;
  meter_shutdown_error := None;
|}.

(** The trace exporter cannot be constructed. *)
Definition traceExporterFails : Script := {|
  detection_error := None;
  trace_exporter_error := broken "context deadline exceeded";
  metric_exporter_error := None;
  trace_shutdown_error := None;
  meter_shutdown_error := None;
|}.

(** The metric exporter cannot be constructed. *)
Definition metricExporterFails : Script := {|
  detection_error := None;
  trace_exporter_error := None;
  metric_exporter_error := broken "connection refused";
  trace_shutdown_error := None;
  meter_shutdown_error := None;
|}.

(** ** More readings of a log, and more inputs *)

Section Reading.
Context `{Types}.

(** The calls that take part in building a metric exporter and the provider
    on top of it. *)
Definition is_metric_construction (e : Event) : bool :=
  match e with
  | otlpmetricgrpc_New_called _ _ | metric_NewPeriodicReader_called _ _
  | metric_NewMeterProvider_called _ => true
  | _ => false
  end.

(** The metric client option that says what a trace client option says. *)
Definition metric_of_trace_option (o : otlptracegrpc_Option) : otlpmetricgrpc_Option :=
  match o with
  | otlptracegrpc_WithEndpoint ep => otlpmetricgrpc_WithEndpoint ep
  | otlptracegrpc_WithHeaders h => otlpmetricgrpc_WithHeaders h
  | otlptracegrpc_WithInsecure => otlpmetricgrpc_WithInsecure
  | otlptracegrpc_WithTLSCredentials c => otlpmetricgrpc_WithTLSCredentials c
  end.

(** The provider shutdowns [Shutdown] owes a pair: one per non-nil provider,
    trace provider first. *)
Definition owed_shutdowns (p : OtelProvider) (ctx : context_Context) : list Event :=
  match TracerProvider p with
  | Some tp => [TracerProvider_Shutdown_called tp ctx]
  | None => []
  end ++
  match MeterProvider p with
  | Some mp => [MeterProvider_Shutdown_called mp ctx]
  | None => []
  end.

End Reading.

(** A pair holding only the meter provider 8. *)
Definition meterOnly : @OtelProvider natTypes :=
  @Build_OtelProvider natTypes None (Some 8%nat).

(** Both signals on, both providers pre-built, no endpoint and no headers. *)
Definition allOverridden : @config natTypes := {|
  enableTracing := true;
  enableMetrics := true;
  exportEndpoint := EmptyString;
  exportHeaders := ∅;
  exportInsecure := false;
  exportTLSInsecure := false;
  sampler := (0%nat : @sdktrace_Sampler natTypes);
  resource := None;
  resourceDetectors := [];
  resourceAttributes := [];
  sdkTracerProvider := Some 7%nat;
  meterProvider := Some 8%nat;
|}.

(** Both signals on, nothing pre-built, no endpoint and no headers. *)
Definition plain : @config natTypes := {|
  enableTracing := true;
  enableMetrics := true;
  exportEndpoint := EmptyString;
  exportHeaders := ∅;
  exportInsecure := false;
  exportTLSInsecure := false;
  sampler := (0%nat : @sdktrace_Sampler natTypes);
  resource := None;
  resourceDetectors := [];
  resourceAttributes := [];
  sdkTracerProvider := None;
  meterProvider := None;
|}.

(** Metrics on with the override provider 8, tracing on without override. *)
Definition tracingAndOverride : @config natTypes := {|
  enableTracing := true;
  enableMetrics := true;
  exportEndpoint := EmptyString;
  exportHeaders := ∅;
  exportInsecure := true;
  exportTLSInsecure := false;
  sampler := (0%nat : @sdktrace_Sampler natTypes);
  resource := None;
  resourceDetectors := [];
  resourceAttributes := [];
  sdkTracerProvider := None;
  meterProvider := Some 8%nat;
|}.

(** The meter provider's shutdown fails, everything else succeeds. *)
Definition meterShutdownFails : Script := {|
  detection_error := None;
  trace_exporter_error := None;
  metric_exporter_error := None;
  trace_shutdown_error := None;
  meter_shutdown_error := broken "export canceled";
|}.

(** * Shutdown *)

Section ShutdownProperties.
Context `{World}.

(** The four shapes of a run of [Shutdown]. *)
Lemma Shutdown_unfold (p : OtelProvider) (ctx : context_Context) :
  Shutdown p ctx =
  match TracerProvider p, MeterProvider p with
  | Some tp, Some mp =>
      (MeterProvider_Shutdown mp ctx,
       TracerProvider_Shutdown_called tp ctx :: report (TracerProvider_Shutdown tp ctx) ++
       MeterProvider_Shutdown_called mp ctx :: report (MeterProvider_Shutdown mp ctx))
  | Some tp, None =>
      (TracerProvider_Shutdown tp ctx,
       TracerProvider_Shutdown_called tp ctx :: report (TracerProvider_Shutdown tp ctx))
  | None, Some mp =>
      (MeterProvider_Shutdown mp ctx,
       MeterProvider_Shutdown_called mp ctx :: report (MeterProvider_Shutdown mp ctx))
  | None, None => (None, [])
  end.
Proof.
  unfold Shutdown.
  destruct (TracerProvider p) as [tp|], (MeterProvider p) as [mp|]; cbn;
    repeat match goal with
           | |- context [TracerProvider_Shutdown ?t ?c] =>
               destruct (TracerProvider_Shutdown t c)
           | |- context [MeterProvider_Shutdown ?m ?c] =>
               destruct (MeterProvider_Shutdown m c)
           end; reflexivity.
Qed.

(** X1. Every provider shutdown that fails is handed to [otel.Handle], in the
    order the shutdowns ran, and nothing else is. *)
Lemma Shutdown_handles_failures (p : OtelProvider) (ctx : context_Context) :
  handled (Shutdown p ctx).2 =
  option_list (tp ← TracerProvider p; TracerProvider_Shutdown tp ctx) ++
  option_list (mp ← MeterProvider p; MeterProvider_Shutdown mp ctx).
Proof.
  rewrite Shutdown_unfold.
  destruct (TracerProvider p) as [tp|], (MeterProvider p) as [mp|]; cbn;
    repeat match goal with
           | |- context [TracerProvider_Shutdown ?t ?c] =>
               destruct (TracerProvider_Shutdown t c)
           | |- context [MeterProvider_Shutdown ?m ?c] =>
               destruct (MeterProvider_Shutdown m c)
           end; reflexivity.
Qed.

(** With both providers present the result is the meter provider's outcome,
    whatever the trace provider's was. *)
Lemma Shutdown_result_both (p : OtelProvider) (ctx : context_Context) tp mp :
  TracerProvider p = Some tp -> MeterProvider p = Some mp ->
  (Shutdown p ctx).1 = MeterProvider_Shutdown mp ctx.
Proof. intros Ht Hm. rewrite Shutdown_unfold, Ht, Hm. reflexivity. Qed.

(** C6. On a pair with a trace provider and no metrics provider, [Shutdown]
    invokes exactly one provider shutdown, the trace provider's; no meter
    provider shutdown occurs in the run; and the result is nil when that
    shutdown succeeds (it is the trace shutdown's outcome in general). *)
Theorem Shutdown_trace_only (p : OtelProvider) (ctx : context_Context) tp :
  TracerProvider p = Some tp -> MeterProvider p = None ->
  shutdowns (Shutdown p ctx).2 = [TracerProvider_Shutdown_called tp ctx] /\
  (forall mp c, ~ In (MeterProvider_Shutdown_called mp c) (Shutdown p ctx).2) /\
  (TracerProvider_Shutdown tp ctx = None -> (Shutdown p ctx).1 = None) /\
  (Shutdown p ctx).1 = TracerProvider_Shutdown tp ctx.
Proof.
  intros Ht Hm. rewrite Shutdown_unfold, Ht, Hm. cbn.
  repeat split.
  - destruct (TracerProvider_Shutdown tp ctx); reflexivity.
  - intros mp c [Hin|Hin]; [discriminate|].
    destruct (TracerProvider_Shutdown tp ctx); cbn in Hin; intuition discriminate.
  - auto.
Qed.

(** C7. On a pair with both providers, [Shutdown] invokes the trace
    provider's shutdown and then the meter provider's, in that order and
    once each, whatever either returns; in particular the meter provider's
    shutdown is invoked when the trace provider's has failed. *)
Theorem Shutdown_attempts_both (p : OtelProvider) (ctx : context_Context) tp mp :
  TracerProvider p = Some tp -> MeterProvider p = Some mp ->
  shutdowns (Shutdown p ctx).2 =
    [TracerProvider_Shutdown_called tp ctx; MeterProvider_Shutdown_called mp ctx] /\
  (forall e, TracerProvider_Shutdown tp ctx = Some e ->
     exists rest,
       (Shutdown p ctx).2 =
         TracerProvider_Shutdown_called tp ctx :: otel_Handle_called e ::
         MeterProvider_Shutdown_called mp ctx :: rest).
Proof.
  intros Ht Hm. rewrite Shutdown_unfold, Ht, Hm. cbn. split.
  - destruct (TracerProvider_Shutdown tp ctx), (MeterProvider_Shutdown mp ctx);
      reflexivity.
  - intros e He. rewrite He. cbn. eauto.
Qed.

(** X2. An error returned by [Shutdown] is the outcome of one of the pair's
    provider shutdowns, and it has been handed to [otel.Handle]. *)
Theorem Shutdown_error_was_reported (p : OtelProvider) (ctx : context_Context) e :
  (Shutdown p ctx).1 = Some e ->
  In e (handled (Shutdown p ctx).2) /\
  ((exists tp, TracerProvider p = Some tp /\ TracerProvider_Shutdown tp ctx = Some e) \/
   (exists mp, MeterProvider p = Some mp /\ MeterProvider_Shutdown mp ctx = Some e)).
Proof.
  rewrite Shutdown_unfold.
  destruct (TracerProvider p) as [tp|], (MeterProvider p) as [mp|]; cbn; intros He.
  - split; [|right; eauto].
    rewrite He. destruct (TracerProvider_Shutdown tp ctx); cbn; auto.
  - split; [|left; eauto]. rewrite He. cbn. auto.
  - split; [|right; eauto]. rewrite He. cbn. auto.
  - discriminate He.
Qed.

(** X3. When every provider shutdown of the pair succeeds (in particular
    when the pair holds no provider), [Shutdown] returns nil, never calls
    [otel.Handle], and its calls are the owed shutdowns and nothing else. *)
Theorem Shutdown_all_succeed (p : OtelProvider) (ctx : context_Context) :
  (forall tp, TracerProvider p = Some tp -> TracerProvider_Shutdown tp ctx = None) ->
  (forall mp, MeterProvider p = Some mp -> MeterProvider_Shutdown mp ctx = None) ->
  Shutdown p ctx = (None, owed_shutdowns p ctx).
Proof.
  intros Ht Hm. rewrite Shutdown_unfold. unfold owed_shutdowns.
  destruct (TracerProvider p) as [tp|], (MeterProvider p) as [mp|];
    rewrite ?(Ht _ eq_refl), ?(Hm _ eq_refl); reflexivity.
Qed.

(** X4. Whatever the outcomes, [Shutdown] shuts every non-nil provider of
    the pair down exactly once, with the caller's context, trace provider
    first, and shuts nothing else down. *)
Theorem Shutdown_each_provider_once (p : OtelProvider) (ctx : context_Context) :
  shutdowns (Shutdown p ctx).2 = owed_shutdowns p ctx.
Proof.
  rewrite Shutdown_unfold. unfold owed_shutdowns.
  destruct (TracerProvider p) as [tp|], (MeterProvider p) as [mp|]; cbn;
    repeat match goal with
           | |- context [TracerProvider_Shutdown ?t ?c] =>
               destruct (TracerProvider_Shutdown t c)
           | |- context [MeterProvider_Shutdown ?m ?c] =>
               destruct (MeterProvider_Shutdown m c)
           end; reflexivity.
Qed.

(** X5. A failure of the meter provider's shutdown is returned by
    [Shutdown] whether or not a trace provider is present and whatever its
    shutdown returned, and handing that failure to [otel.Handle] is the last
    call [Shutdown] makes. *)
Theorem Shutdown_meter_failure_returned (p : OtelProvider) (ctx : context_Context) mp e :
  MeterProvider p = Some mp ->
  MeterProvider_Shutdown mp ctx = Some e ->
  (Shutdown p ctx).1 = Some e /\
  last (Shutdown p ctx).2 = Some (otel_Handle_called e).
Proof.
  intros Hm He. rewrite Shutdown_unfold, Hm, He.
  destruct (TracerProvider p) as [tp|]; cbn; [|done].
  split; [done|]. destruct (TracerProvider_Shutdown tp ctx); reflexivity.
Qed.

End ShutdownProperties.

(** C1. With both providers present, a failing trace provider shutdown
    followed by a succeeding meter provider shutdown: the failure is handed
    to [otel.Handle] and the meter provider is still shut down, but the
    result of [Shutdown] is nil, not the trace shutdown error; the
    assignment of the meter provider's outcome to [err] has overwritten it.
    Without a meter provider the same failure is returned. *)
Theorem Shutdown_loses_trace_error :
  @TracerProvider_Shutdown natTypes (scripted traceShutdownFails) 7%nat 3%nat =
    Some (errorString "flush timed out") /\
  @MeterProvider_Shutdown natTypes (scripted traceShutdownFails) 8%nat 3%nat = None /\
  @Shutdown natTypes (scripted traceShutdownFails) bothProviders 3%nat =
    (None,
     [TracerProvider_Shutdown_called (7%nat : @sdktrace_TracerProvider natTypes) 3%nat;
      otel_Handle_called (errorString "flush timed out");
      MeterProvider_Shutdown_called (8%nat : @metric_MeterProvider natTypes) 3%nat]) /\
  (@Shutdown natTypes (scripted traceShutdownFails) traceOnly 3%nat).1 =
    Some (errorString "flush timed out").
Proof. repeat split. Qed.

(** C6 on the pair holding only the trace provider 7, every call succeeding. *)
Lemma Shutdown_trace_only_witness :
  shutdowns (@Shutdown natTypes (scripted all_fine) traceOnly 3%nat).2 =
    [TracerProvider_Shutdown_called (7%nat : @sdktrace_TracerProvider natTypes) 3%nat] /\
  (@Shutdown natTypes (scripted all_fine) traceOnly 3%nat).1 = None.
Proof.
  destruct (@Shutdown_trace_only natTypes (scripted all_fine) traceOnly 3%nat 7%nat)
    as (Hcalls & _ & Hnil & _); [reflexivity | reflexivity |].
  split; [exact Hcalls | apply Hnil; reflexivity].
Defined.

(** C7 on the pair holding providers 7 and 8, the trace shutdown failing. *)
Lemma Shutdown_attempts_both_witness :
  shutdowns (@Shutdown natTypes (scripted traceShutdownFails) bothProviders 3%nat).2 =
    [TracerProvider_Shutdown_called (7%nat : @sdktrace_TracerProvider natTypes) 3%nat;
     MeterProvider_Shutdown_called (8%nat : @metric_MeterProvider natTypes) 3%nat].
Proof.
  apply (@Shutdown_attempts_both natTypes (scripted traceShutdownFails)
           bothProviders 3%nat 7%nat 8%nat); reflexivity.
Defined.

(** * NewOpenTelemetryProvider and newResource *)

Section ProviderProperties.
Context `{World}.

Lemma newResource_cases (cfg : config) : newResource_run cfg (newResource cfg).
Proof.
  unfold newResource.
  destruct (resource cfg) as [r|] eqn:Hr; cbn.
  - by constructor.
  - destruct (resource_New context_Background (detection cfg)) as [res [e|]] eqn:Hn; cbn.
    + by econstructor 2.
    + by constructor 3.
Qed.

Lemma tracing_cases ctx (cfg : config) res : tracing_run ctx cfg res (tracing ctx cfg res).
Proof.
  unfold tracing.
  destruct (enableTracing cfg) eqn:Ht; [|by constructor].
  destruct (sdkTracerProvider cfg) as [tp|] eqn:Ho; cbn; [by constructor|].
  destruct (otlptrace_New ctx (otlptracegrpc_NewClient (traceClientOpts cfg)))
    as [exp [e|]] eqn:Hn; cbn.
  - by econstructor 3.
  - by apply tracing_built.
Qed.

Lemma metrics_cases (cfg : config) res : metrics_run cfg res (metrics cfg res).
Proof.
  unfold metrics.
  destruct (enableMetrics cfg) eqn:Hm; [|by constructor].
  destruct (meterProvider cfg) as [mp|] eqn:Ho; cbn; [by constructor|].
  destruct (otlpmetricgrpc_New context_Background (metricsClientOpts cfg))
    as [exp [e|]] eqn:Hn; cbn.
  - by econstructor 3.
  - by apply metrics_built.
Qed.

(** The body of [NewOpenTelemetryProvider] as a composition of its blocks. *)
Lemma NewOpenTelemetryProvider_unfold (opts : list Option) :
  NewOpenTelemetryProvider opts =
  let cfg := newConfig opts in
  if negb (enableTracing cfg) && negb (enableMetrics cfg) then ((None, None), [])
  else
    let (res, lr) := newResource cfg in
    match tracing context_TODO cfg res with
    | (Returned r, lt) => (r, lr ++ lt)
    | (Next tp, lt) =>
        match metrics cfg res with
        | (Returned r, lm) => (r, lr ++ lt ++ lm)
        | (Next mp, lm) =>
            ((Some {| TracerProvider := tp; MeterProvider := mp |}, None),
             lr ++ lt ++ lm)
        end
    end.
Proof.
  unfold NewOpenTelemetryProvider. cbv zeta.
  destruct (negb _ && negb _); [reflexivity|].
  unfold invoke, bind at 1 2, pure. cbn [fst snd].
  destruct (newResource (newConfig opts)) as [res lr]. cbn [fst snd app].
  destruct (tracing context_TODO (newConfig opts) res) as [[tp|r] lt]; cbn.
  - destruct (metrics (newConfig opts) res) as [[mp|r] lm]; cbn.
    + by rewrite app_nil_r.
    + reflexivity.
  - reflexivity.
Qed.

(** Case analysis on a run of [NewOpenTelemetryProvider]: one goal per
    path through the resource, tracing and metrics blocks. *)
Ltac provider_runs opts :=
  rewrite (NewOpenTelemetryProvider_unfold opts); cbv zeta;
  destruct (negb (enableTracing (newConfig opts)) && negb (enableMetrics (newConfig opts)))
    eqn:Hoff;
  [ | destruct (newResource_cases (newConfig opts));
      match goal with
      | |- context [tracing ?c ?cfg ?r] => destruct (tracing_cases c cfg r)
      end;
      try match goal with
      | |- context [metrics ?cfg ?r] => destruct (metrics_cases cfg r)
      end ];
  cbn [fst snd app].

(** Decompose what the hypotheses say about a concrete log. *)
Ltac read_log :=
  repeat match goal with
  | H : _ /\ _ |- _ => destruct H
  | H : exists _, _ |- _ => destruct H
  | H : _ \/ _ |- _ => destruct H
  | H : False |- _ => destruct H
  | H : In _ [] |- _ => destruct H
  | H : In _ (_ :: _) |- _ => destruct H
  | H : @eq Event _ _ |- _ => first [discriminate H | inversion H; subst; clear H]
  | H : ?f = (_, _), H' : context [?f] |- _ => rewrite H in H'; cbn [fst snd] in H'
  | H : Some _ = Some _ |- _ => inversion H; subst; clear H
  | H : Some _ = None |- _ => discriminate H
  | H : None = Some _ |- _ => discriminate H
  | H : true = false |- _ => discriminate H
  | H : false = true |- _ => discriminate H
  | H : ?x = true, H' : ?x = false |- _ => rewrite H in H'
  | H : ?x = Some _, H' : ?x = None |- _ => rewrite H in H'
  | H : ?x = Some _, H' : ?x = Some _ |- _ => rewrite H in H'
  end.

(** C2. When the resolved configuration has both [enableTracing] and
    [enableMetrics] off, [NewOpenTelemetryProvider] returns a nil pair and a
    nil error, and calls nothing; no other field of the configuration is
    read. *)
Theorem disabled_returns_nil (opts : list Option) :
  enableTracing (newConfig opts) = false ->
  enableMetrics (newConfig opts) = false ->
  NewOpenTelemetryProvider opts = ((None, None), []).
Proof.
  intros Ht Hm. rewrite NewOpenTelemetryProvider_unfold. cbv zeta.
  by rewrite Ht, Hm.
Qed.

(** C3. If, in a run of [NewOpenTelemetryProvider], the construction of the
    trace exporter or of the metric exporter fails with [e], then the
    returned pair is nil, and the returned error is non-nil with message
    "failed to create otlp trace exporter: " followed by [e]'s message when
    it was the trace exporter, and "failed to create otlp metric exporter: "
    followed by [e]'s message when it was the metric exporter. *)
Theorem exporter_failure_aborts (opts : list Option) (e : error) :
  trace_exporter_failed (NewOpenTelemetryProvider opts).2 e \/
  metric_exporter_failed (NewOpenTelemetryProvider opts).2 e ->
  (NewOpenTelemetryProvider opts).1.1 = None /\
  (trace_exporter_failed (NewOpenTelemetryProvider opts).2 e ->
   (NewOpenTelemetryProvider opts).1.2 =
     Some (errorString ("failed to create otlp trace exporter: " +:+ Error e))) /\
  (metric_exporter_failed (NewOpenTelemetryProvider opts).2 e ->
   (NewOpenTelemetryProvider opts).1.2 =
     Some (errorString ("failed to create otlp metric exporter: " +:+ Error e))).
Proof.
  unfold trace_exporter_failed, metric_exporter_failed.
  provider_runs opts.
  all: intros Hf; cbn in Hf; read_log.
  all: repeat split; intros Hf; cbn in Hf; read_log; try reflexivity.
Qed.
(** C5, amended. With tracing enabled and an override trace provider [tp]
    supplied, no call of the trace construction path occurs (no client, no
    exporter, no span processor, no provider), and the run either returns a
    pair whose trace handle is [tp] itself with a nil error, or, only when
    metrics is enabled without an override and the construction of the
    metric exporter fails, returns a nil pair with the metric exporter's
    construction error. *)
Theorem override_trace_provider (opts : list Option) tp :
  enableTracing (newConfig opts) = true ->
  sdkTracerProvider (newConfig opts) = Some tp ->
  List.filter is_trace_construction (NewOpenTelemetryProvider opts).2 = [] /\
  ((exists p, (NewOpenTelemetryProvider opts).1 = (Some p, None) /\
              TracerProvider p = Some tp) \/
   (enableMetrics (newConfig opts) = true /\
    meterProvider (newConfig opts) = None /\
    exists e, metric_exporter_failed (NewOpenTelemetryProvider opts).2 e /\
              (NewOpenTelemetryProvider opts).1 =
                (None, Some (fmt_Errorf metric_exporter_failure e)))).
Proof.
  unfold metric_exporter_failed.
  provider_runs opts; intros Ht Ho; read_log.
  all: try (rewrite Ht in Hoff; discriminate Hoff).
  all: split; [reflexivity|].
  all: first [ left; eexists; split; [reflexivity|reflexivity]
             | right; split; [assumption|]; split; [assumption|];
               eexists; split; [|reflexivity];
               do 2 eexists; split; [cbn; eauto 6|];
               match goal with H : _ = (_, Some _) |- _ => by rewrite H end ].
Qed.

(** C10. When [NewOpenTelemetryProvider] returns a non-nil pair, the pair's
    trace provider is non-nil exactly when [enableTracing] is on and its
    meter provider is non-nil exactly when [enableMetrics] is on. *)
Theorem handles_follow_toggles (opts : list Option) p :
  (NewOpenTelemetryProvider opts).1.1 = Some p ->
  (is_Some (TracerProvider p) <-> enableTracing (newConfig opts) = true) /\
  (is_Some (MeterProvider p) <-> enableMetrics (newConfig opts) = true).
Proof.
  provider_runs opts; intros Hp; cbn in Hp; [discriminate Hp|..];
    try discriminate Hp; injection Hp as <-; cbn.
  all: repeat match goal with
              | H : ?x = true |- context [?x] => rewrite H
              | H : ?x = false |- context [?x] => rewrite H
              end.
  all: split; split; intros Hx; try reflexivity; try discriminate Hx;
       first [ exact (mk_is_Some _ _ eq_refl) | by destruct Hx ].
Qed.

(** C8. With a pre-built resource in the configuration, [newResource]
    returns that resource and makes no call: neither [resource.New], which
    runs the detectors, nor [resource.Default]. *)
Theorem prebuilt_resource_returned (cfg : config) r :
  resource cfg = Some r ->
  newResource cfg = (Some r, []).
Proof. intros Hr. unfold newResource. by rewrite Hr. Qed.

(** Every error [NewOpenTelemetryProvider] returns is the wrapped error of
    an exporter construction that failed in that run. *)
Lemma error_is_exporter_failure (opts : list Option) (err : error) :
  (NewOpenTelemetryProvider opts).1.2 = Some err ->
  (NewOpenTelemetryProvider opts).1.1 = None /\
  exists e,
    (trace_exporter_failed (NewOpenTelemetryProvider opts).2 e /\
     err = fmt_Errorf trace_exporter_failure e) \/
    (metric_exporter_failed (NewOpenTelemetryProvider opts).2 e /\
     err = fmt_Errorf metric_exporter_failure e).
Proof.
  unfold trace_exporter_failed, metric_exporter_failed.
  provider_runs opts; intros Herr; cbn in Herr; read_log.
  all: split; [reflexivity|]; eexists.
  all: first [ left; split; [|reflexivity]; do 2 eexists; split; [cbn; eauto 6|];
               match goal with H : otlptrace_New _ _ = _ |- _ => by rewrite H end
             | right; split; [|reflexivity]; do 2 eexists; split; [cbn; eauto 8|];
               match goal with H : otlpmetricgrpc_New _ _ = _ |- _ => by rewrite H end ].
Qed.

(** With a signal enabled, the run starts with the calls of [newResource]. *)
Lemma enabled_runs_newResource (opts : list Option) :
  enableTracing (newConfig opts) = true \/ enableMetrics (newConfig opts) = true ->
  exists rest, (NewOpenTelemetryProvider opts).2 = (newResource (newConfig opts)).2 ++ rest.
Proof.
  intros Hon. rewrite NewOpenTelemetryProvider_unfold. cbv zeta.
  replace (negb _ && negb _) with false
    by (destruct Hon as [-> | ->]; cbn; by rewrite ?andb_false_r).
  destruct (newResource (newConfig opts)) as [res lr]. cbn [snd].
  destruct (tracing _ _ _) as [[tp|r] lt].
  - destruct (metrics _ _) as [[mp|r] lm]; eauto.
  - eauto.
Qed.

(** C9. Without a pre-built resource, when [resource.New] fails with [e]:
    [newResource] calls [resource.Default] and returns its result;
    [NewOpenTelemetryProvider], when a signal is enabled, does run that
    failing detection; and any error [NewOpenTelemetryProvider] returns is
    still the wrapped error of a failed exporter construction, never the
    detection error. *)
Theorem detection_failure_recovered (opts : list Option) (e : error) :
  resource (newConfig opts) = None ->
  (resource_New context_Background (detection (newConfig opts))).2 = Some e ->
  newResource (newConfig opts) =
    (Some resource_Default,
     [resource_New_called context_Background (detection (newConfig opts));
      resource_Default_called]) /\
  (enableTracing (newConfig opts) = true \/ enableMetrics (newConfig opts) = true ->
   resource_detection_failed (NewOpenTelemetryProvider opts).2 e) /\
  (forall err, (NewOpenTelemetryProvider opts).1.2 = Some err ->
     (NewOpenTelemetryProvider opts).1.1 = None /\
     exists e',
       (trace_exporter_failed (NewOpenTelemetryProvider opts).2 e' /\
        err = fmt_Errorf trace_exporter_failure e') \/
       (metric_exporter_failed (NewOpenTelemetryProvider opts).2 e' /\
        err = fmt_Errorf metric_exporter_failure e')).
Proof.
  intros Hr He.
  assert (Hres : newResource (newConfig opts) =
    (Some resource_Default,
     [resource_New_called context_Background (detection (newConfig opts));
      resource_Default_called])).
  { destruct (newResource_cases (newConfig opts)); read_log; reflexivity. }
  split; [exact Hres|]. split.
  - intros Hon. destruct (enabled_runs_newResource opts Hon) as [rest ->].
    rewrite Hres. exists context_Background, (detection (newConfig opts)).
    split; [cbn; auto | exact He].
  - apply error_is_exporter_failure.
Qed.
(** The exporter clients built in a run are built from the local option
    slices. *)
Lemma clients_use_local_opts (opts : list Option) :
  (forall o, In (otlptracegrpc_NewClient_called o) (NewOpenTelemetryProvider opts).2 ->
     o = traceClientOpts (newConfig opts)) /\
  (forall ctx o, In (otlpmetricgrpc_New_called ctx o) (NewOpenTelemetryProvider opts).2 ->
     o = metricsClientOpts (newConfig opts)).
Proof.
  provider_runs opts; split; intros; read_log; reflexivity.
Qed.

Ltac opts_cases cfg :=
  unfold traceClientOpts, metricsClientOpts; cbv zeta;
  destruct (bool_decide (exportEndpoint cfg <> EmptyString)),
           (bool_decide (0 < size (exportHeaders cfg))%nat); cbn.

(** C4. The transport options of both exporter clients.  With
    [exportInsecure] on, [WithInsecure] is among the options and no
    [WithTLSCredentials] is, whatever [exportTLSInsecure] says.  With
    [exportInsecure] off and [exportTLSInsecure] on, [WithTLSCredentials]
    over [NewClientTLSFromCert] of a nil pool and the empty server name is
    among them and [WithInsecure] is not.  With both off, neither is.  Every trace client and every
    metric exporter built in a run is built from exactly these slices. *)
Theorem insecure_takes_precedence (opts : list Option) :
  let cfg := newConfig opts in
  let tls := NewClientTLSFromCert None EmptyString in
  (exportInsecure cfg = true ->
     (In otlptracegrpc_WithInsecure (traceClientOpts cfg) /\
      forall c, ~ In (otlptracegrpc_WithTLSCredentials c) (traceClientOpts cfg)) /\
     (In otlpmetricgrpc_WithInsecure (metricsClientOpts cfg) /\
      forall c, ~ In (otlpmetricgrpc_WithTLSCredentials c) (metricsClientOpts cfg))) /\
  (exportInsecure cfg = false -> exportTLSInsecure cfg = true ->
     (In (otlptracegrpc_WithTLSCredentials tls) (traceClientOpts cfg) /\
      ~ In otlptracegrpc_WithInsecure (traceClientOpts cfg)) /\
     (In (otlpmetricgrpc_WithTLSCredentials tls) (metricsClientOpts cfg) /\
      ~ In otlpmetricgrpc_WithInsecure (metricsClientOpts cfg))) /\
  (exportInsecure cfg = false -> exportTLSInsecure cfg = false ->
     (~ In otlptracegrpc_WithInsecure (traceClientOpts cfg) /\
      forall c, ~ In (otlptracegrpc_WithTLSCredentials c) (traceClientOpts cfg)) /\
     (~ In otlpmetricgrpc_WithInsecure (metricsClientOpts cfg) /\
      forall c, ~ In (otlpmetricgrpc_WithTLSCredentials c) (metricsClientOpts cfg))) /\
  (forall o, In (otlptracegrpc_NewClient_called o) (NewOpenTelemetryProvider opts).2 ->
     o = traceClientOpts cfg) /\
  (forall ctx o, In (otlpmetricgrpc_New_called ctx o) (NewOpenTelemetryProvider opts).2 ->
     o = metricsClientOpts cfg).
Proof.
  intros cfg tls. subst tls.
  split; [|split; [|split; [|apply clients_use_local_opts]]].
  - intros Hi. opts_cases cfg; rewrite Hi; cbn; intuition discriminate.
  - intros Hi Ht. opts_cases cfg; rewrite Hi, Ht; cbn; intuition discriminate.
  - intros Hi Ht. opts_cases cfg; rewrite Hi, Ht; cbn; intuition discriminate.
Qed.

(** X6. [NewOpenTelemetryProvider] never returns a pair together with an
    error, and it returns neither (nil pair, nil error) exactly when both
    toggles are off. *)
Theorem result_shapes (opts : list Option) :
  ((NewOpenTelemetryProvider opts).1 = (None, None) <->
   enableTracing (newConfig opts) = false /\ enableMetrics (newConfig opts) = false) /\
  ~ (is_Some (NewOpenTelemetryProvider opts).1.1 /\
     is_Some (NewOpenTelemetryProvider opts).1.2).
Proof.
  provider_runs opts.
  { apply andb_true_iff in Hoff as [Ht Hm].
    apply negb_true_iff in Ht, Hm. split; [done|].
    intros [[? [=]] _]. }
  all: split;
    [ split;
      [ intros [=]
      | intros [Ht Hm]; rewrite Ht, Hm in Hoff; discriminate Hoff ]
    | cbn; intros [[? Hp] [? He]]; discriminate Hp || discriminate He ].
Qed.

(** X7. With metrics enabled and an override meter provider [mp] supplied,
    no call of the metric construction path occurs, and the run either
    returns a pair whose meter handle is [mp] itself with a nil error, or
    returns a nil pair with the trace exporter's construction error. *)
Theorem override_meter_provider (opts : list Option) mp :
  enableMetrics (newConfig opts) = true ->
  meterProvider (newConfig opts) = Some mp ->
  List.filter is_metric_construction (NewOpenTelemetryProvider opts).2 = [] /\
  ((exists p, (NewOpenTelemetryProvider opts).1 = (Some p, None) /\
              MeterProvider p = Some mp) \/
   (exists e, trace_exporter_failed (NewOpenTelemetryProvider opts).2 e /\
              (NewOpenTelemetryProvider opts).1 =
                (None, Some (fmt_Errorf trace_exporter_failure e)))).
Proof.
  unfold trace_exporter_failed.
  provider_runs opts; intros Hm Ho; read_log.
  all: try (rewrite Hm, andb_false_r in Hoff; discriminate Hoff).
  all: split; [reflexivity|].
  all: first [ left; eexists; split; [reflexivity|reflexivity]
             | right; eexists; split; [|reflexivity];
               do 2 eexists; split; [cbn; eauto 6|];
               match goal with H : _ = (_, Some _) |- _ => by rewrite H end ].
Qed.

(** X8. When every enabled signal comes with an override provider,
    [NewOpenTelemetryProvider] cannot fail: it returns the overrides of the
    enabled signals with a nil error.  The only calls it makes are those of
    [newResource], whose result is then used by nothing. *)
Theorem overrides_cannot_fail (opts : list Option) :
  enableTracing (newConfig opts) = true \/ enableMetrics (newConfig opts) = true ->
  (enableTracing (newConfig opts) = true -> is_Some (sdkTracerProvider (newConfig opts))) ->
  (enableMetrics (newConfig opts) = true -> is_Some (meterProvider (newConfig opts))) ->
  NewOpenTelemetryProvider opts =
    ((Some {| TracerProvider :=
                if enableTracing (newConfig opts)
                then sdkTracerProvider (newConfig opts) else None;
              MeterProvider :=
                if enableMetrics (newConfig opts)
                then meterProvider (newConfig opts) else None |},
      None),
     (newResource (newConfig opts)).2).
Proof.
  intros Hon Ht Hm. revert Hon Ht Hm.
  provider_runs opts; intros Hon Ht Hm.
  { destruct Hon as [Hon|Hon]; rewrite Hon in Hoff; cbn in Hoff;
      rewrite ?andb_false_r in Hoff; discriminate Hoff. }
  all: repeat match goal with
              | H : ?x = true, H' : ?x = true -> _ |- _ => specialize (H' H)
              | H : ?x = None, H' : is_Some ?x |- _ => rewrite H in H'; by destruct H'
              end.
  all: repeat match goal with
              | H : ?x = _ |- context [?x] => rewrite H
              end; cbn; by rewrite ?app_nil_r.
Qed.

(** X9. A tracer provider that [NewOpenTelemetryProvider] builds is built
    from exactly three options: the configured sampler, the resource
    [newResource] returned, and a batch span processor over the exporter
    that [otlptrace.New] returned for a client made from the local option
    slice. *)
Theorem trace_pipeline_wiring (opts : list Option) o :
  In (sdktrace_NewTracerProvider_called o) (NewOpenTelemetryProvider opts).2 ->
  exists exp,
    otlptrace_New context_TODO
      (otlptracegrpc_NewClient (traceClientOpts (newConfig opts))) = (exp, None) /\
    In (sdktrace_NewBatchSpanProcessor_called exp) (NewOpenTelemetryProvider opts).2 /\
    o = [ sdktrace_WithSampler (sampler (newConfig opts));
          sdktrace_WithResource (newResource (newConfig opts)).1;
          sdktrace_WithSpanProcessor (sdktrace_NewBatchSpanProcessor exp) ].
Proof.
  provider_runs opts; intros Hin; cbn in Hin; read_log.
  all: eexists; split; [eassumption|]; split; [cbn; auto 8|reflexivity].
Qed.

(** X10. A meter provider that [NewOpenTelemetryProvider] builds is built
    from exactly two options: a periodic reader over the exporter that
    [otlpmetricgrpc.New] returned for the local option slice, with an export
    interval of 15 seconds whatever the configuration, and the resource
    [newResource] returned, the same one the tracer provider gets. *)
Theorem metric_pipeline_wiring (opts : list Option) o :
  In (metric_NewMeterProvider_called o) (NewOpenTelemetryProvider opts).2 ->
  exists exp,
    otlpmetricgrpc_New context_Background (metricsClientOpts (newConfig opts)) =
      (exp, None) /\
    In (metric_NewPeriodicReader_called exp [metric_WithInterval 15000000000])
       (NewOpenTelemetryProvider opts).2 /\
    o = [ metric_WithReader
            (metric_NewPeriodicReader exp [metric_WithInterval 15000000000]);
          metric_WithResource (newResource (newConfig opts)).1 ].
Proof.
  provider_runs opts; intros Hin; cbn in Hin; read_log.
  all: eexists; split; [eassumption|]; split; [cbn; auto 10|reflexivity].
Qed.

(** X11. The metric exporter is given, option for option and in the same
    order, what the trace exporter client is given. *)
Theorem clients_configured_alike (cfg : config) :
  map metric_of_trace_option (traceClientOpts cfg) = metricsClientOpts cfg.
Proof.
  opts_cases cfg; destruct (exportInsecure cfg), (exportTLSInsecure cfg); reflexivity.
Qed.

(** X12. The endpoint option is passed exactly when the configured endpoint
    is not the empty string, and then carries it unchanged; the headers
    option is passed exactly when the configured header map is not empty,
    and then carries it unchanged. *)
Theorem endpoint_and_headers_options (cfg : config) :
  (forall ep, In (otlptracegrpc_WithEndpoint ep) (traceClientOpts cfg) <->
              ep = exportEndpoint cfg /\ ep <> EmptyString) /\
  (forall h, In (otlptracegrpc_WithHeaders h) (traceClientOpts cfg) <->
             h = exportHeaders cfg /\ h <> ∅) /\
  (forall ep, In (otlpmetricgrpc_WithEndpoint ep) (metricsClientOpts cfg) <->
              ep = exportEndpoint cfg /\ ep <> EmptyString) /\
  (forall h, In (otlpmetricgrpc_WithHeaders h) (metricsClientOpts cfg) <->
             h = exportHeaders cfg /\ h <> ∅).
Proof.
  assert (Hsize : (0 < size (exportHeaders cfg))%nat <-> exportHeaders cfg <> ∅).
  { rewrite <- map_size_non_empty_iff. lia. }
  unfold traceClientOpts, metricsClientOpts; cbv zeta.
  destruct (bool_decide_reflect (exportEndpoint cfg <> EmptyString)) as [Hep|Hep],
           (bool_decide_reflect (0 < size (exportHeaders cfg))%nat) as [Hh|Hh];
    rewrite Hsize in Hh;
    destruct (exportInsecure cfg), (exportTLSInsecure cfg); cbn.
  all: repeat split; intros;
       intuition (subst; try discriminate; try congruence; try tauto).
Qed.

(** X13. Once the trace exporter cannot be constructed nothing else is
    called: the calls of the run are those of [newResource], the client
    construction and the failed [otlptrace.New]; the metric exporter is not
    attempted and no provider is built. *)
Theorem trace_failure_stops_the_run (opts : list Option) e :
  trace_exporter_failed (NewOpenTelemetryProvider opts).2 e ->
  (NewOpenTelemetryProvider opts).2 =
    (newResource (newConfig opts)).2 ++
    [ otlptracegrpc_NewClient_called (traceClientOpts (newConfig opts));
      otlptrace_New_called context_TODO
        (otlptracegrpc_NewClient (traceClientOpts (newConfig opts))) ] /\
  List.filter is_metric_construction (NewOpenTelemetryProvider opts).2 = [].
Proof.
  unfold trace_exporter_failed.
  provider_runs opts; intros Hf; cbn in Hf; read_log.
  all: split; reflexivity.
Qed.

(** X14. [NewOpenTelemetryProvider] never shuts a provider down and never
    calls [otel.Handle], on no path, the failing ones included. *)
Theorem initialize_never_shuts_down (opts : list Option) :
  shutdowns (NewOpenTelemetryProvider opts).2 = [] /\
  handled (NewOpenTelemetryProvider opts).2 = [].
Proof.
  provider_runs opts; split; reflexivity.
Qed.

(** X15. When the metric exporter cannot be constructed after the tracing
    block has built its own tracer provider, that provider has been built
    (with its exporter and span processor) and is not returned: the result
    is a nil pair. *)
Theorem metric_failure_drops_built_tracer (opts : list Option) e :
  metric_exporter_failed (NewOpenTelemetryProvider opts).2 e ->
  enableTracing (newConfig opts) = true ->
  sdkTracerProvider (newConfig opts) = None ->
  (exists o, In (sdktrace_NewTracerProvider_called o) (NewOpenTelemetryProvider opts).2) /\
  (NewOpenTelemetryProvider opts).1.1 = None.
Proof.
  unfold metric_exporter_failed.
  provider_runs opts; intros Hf Ht Ho; cbn in Hf; read_log.
  all: split; [eexists; cbn; eauto 8|reflexivity].
Qed.

(** X16. The error for a failed trace exporter and the error for a failed
    metric exporter never have the same message, whatever the underlying
    errors say. *)
Theorem exporter_errors_distinguishable (e e' : error) :
  Error (fmt_Errorf trace_exporter_failure e) <>
  Error (fmt_Errorf metric_exporter_failure e').
Proof.
  unfold fmt_Errorf, trace_exporter_failure, metric_exporter_failure. cbn.
  intros Heq. discriminate Heq.
Qed.

(** X17. Shutting down a pair that [NewOpenTelemetryProvider] returned shuts
    down a trace provider exactly when tracing is enabled and a meter
    provider exactly when metrics is enabled. *)
Theorem Shutdown_of_initialized (opts : list Option) p ctx :
  (NewOpenTelemetryProvider opts).1.1 = Some p ->
  (enableTracing (newConfig opts) = true <->
   exists tp, In (TracerProvider_Shutdown_called tp ctx) (Shutdown p ctx).2) /\
  (enableMetrics (newConfig opts) = true <->
   exists mp, In (MeterProvider_Shutdown_called mp ctx) (Shutdown p ctx).2).
Proof.
  rewrite (Shutdown_unfold p ctx).
  provider_runs opts; intros Hp; cbn in Hp; [discriminate Hp|..];
    try discriminate Hp; injection Hp as <-; cbn.
  all: repeat match goal with
              | H : ?x = true |- context [?x] => rewrite H
              | H : ?x = false |- context [?x] => rewrite H
              end.
  all: repeat match goal with
              | |- context [TracerProvider_Shutdown ?t ?c] =>
                  destruct (TracerProvider_Shutdown t c)
              | |- context [MeterProvider_Shutdown ?m ?c] =>
                  destruct (MeterProvider_Shutdown m c)
              end; cbn.
  all: split; split; intros Hx; try reflexivity; try discriminate Hx;
       first [ eexists; cbn; eauto 6; fail | read_log ].
Qed.

(** X18. Shutting down a pair that [NewOpenTelemetryProvider] returned shuts
    down the caller's own override providers: the override trace provider
    when tracing is enabled, the override meter provider when metrics is. *)
Theorem Shutdown_reaches_overrides (opts : list Option) p ctx :
  (NewOpenTelemetryProvider opts).1.1 = Some p ->
  (forall tp, enableTracing (newConfig opts) = true ->
     sdkTracerProvider (newConfig opts) = Some tp ->
     In (TracerProvider_Shutdown_called tp ctx) (Shutdown p ctx).2) /\
  (forall mp, enableMetrics (newConfig opts) = true ->
     meterProvider (newConfig opts) = Some mp ->
     In (MeterProvider_Shutdown_called mp ctx) (Shutdown p ctx).2).
Proof.
  rewrite (Shutdown_unfold p ctx).
  provider_runs opts; intros Hp; cbn in Hp; [discriminate Hp|..];
    try discriminate Hp; injection Hp as <-; cbn.
  all: split; intros x Hon Hov; read_log; cbn; rewrite ?in_app_iff; cbn; auto.
Qed.

(** X19. The calls of [newResource]: none exactly when the configuration
    carries a resource; [resource.Default] exactly when it carries none and
    [resource.New] returned an error; and when [resource.New] succeeds its
    result is returned as it is, after that single call. *)
Theorem newResource_calls (cfg : config) :
  ((newResource cfg).2 = [] <-> is_Some (resource cfg)) /\
  (In resource_Default_called (newResource cfg).2 <->
   resource cfg = None /\
   is_Some (resource_New context_Background (detection cfg)).2) /\
  (resource cfg = None ->
   (resource_New context_Background (detection cfg)).2 = None ->
   newResource cfg =
     ((resource_New context_Background (detection cfg)).1,
      [resource_New_called context_Background (detection cfg)])).
Proof.
  destruct (newResource_cases cfg) as [r Hr|res e Hr Hn|res Hr Hn];
    rewrite Hr, ?Hn; cbn; unfold is_Some.
  all: repeat split; intros; read_log; try done; try (by eexists); cbn; auto.
Qed.

End ProviderProperties.


(** * Runs in the scripted world *)

(** C2 on a configuration with both toggles off and every other option set. *)
Lemma disabled_returns_nil_witness :
  @NewOpenTelemetryProvider natTypes (scripted all_fine) [use disabled] = ((None, None), []).
Proof.
  apply (@disabled_returns_nil natTypes (scripted all_fine) [use disabled]); reflexivity.
Defined.

(** C3 on a run whose trace exporter cannot be constructed. *)
Lemma exporter_failure_aborts_witness :
  (@NewOpenTelemetryProvider natTypes (scripted traceExporterFails)
     [use (bothEnabled true false)]).1 =
  (None,
   Some (errorString "failed to create otlp trace exporter: context deadline exceeded")).
Proof.
  assert (Hf : @trace_exporter_failed natTypes (scripted traceExporterFails)
            (@NewOpenTelemetryProvider natTypes (scripted traceExporterFails)
               [use (bothEnabled true false)]).2
            (errorString "context deadline exceeded")).
  { exists 0%nat, 20%nat. split; [vm_compute; auto | reflexivity]. }
  destruct (@exporter_failure_aborts natTypes (scripted traceExporterFails)
              [use (bothEnabled true false)] (errorString "context deadline exceeded")
              (or_introl Hf)) as (Hnil & Htrace & _).
  specialize (Htrace Hf).
  destruct (@NewOpenTelemetryProvider natTypes (scripted traceExporterFails)
              [use (bothEnabled true false)]) as [[p err] log].
  cbn in *. by subst.
Defined.

(** C4 on the three settings of the two insecurity flags. *)
Lemma insecure_takes_precedence_witness :
  (In otlptracegrpc_WithInsecure
      (traceClientOpts (@newConfig natTypes (scripted all_fine) [use (bothEnabled true true)])) /\
   forall c,
     ~ In (otlptracegrpc_WithTLSCredentials c)
          (traceClientOpts
             (@newConfig natTypes (scripted all_fine) [use (bothEnabled true true)]))) /\
  (In (otlpmetricgrpc_WithTLSCredentials (NewClientTLSFromCert None EmptyString))
      (metricsClientOpts
         (@newConfig natTypes (scripted all_fine) [use (bothEnabled false true)])) /\
   ~ In otlpmetricgrpc_WithInsecure
        (metricsClientOpts
           (@newConfig natTypes (scripted all_fine) [use (bothEnabled false true)]))) /\
  (~ In otlptracegrpc_WithInsecure
        (traceClientOpts
           (@newConfig natTypes (scripted all_fine) [use (bothEnabled false false)])) /\
   forall c,
     ~ In (otlptracegrpc_WithTLSCredentials c)
          (traceClientOpts
             (@newConfig natTypes (scripted all_fine) [use (bothEnabled false false)]))).
Proof.
  split; [|split].
  - destruct (@insecure_takes_precedence natTypes (scripted all_fine)
                [use (bothEnabled true true)]) as (Hinsecure & _).
    exact (proj1 (Hinsecure eq_refl)).
  - destruct (@insecure_takes_precedence natTypes (scripted all_fine)
                [use (bothEnabled false true)]) as (_ & Htls & _).
    exact (proj2 (Htls eq_refl eq_refl)).
  - destruct (@insecure_takes_precedence natTypes (scripted all_fine)
                [use (bothEnabled false false)]) as (_ & _ & Hdefault & _).
    exact (proj1 (Hdefault eq_refl eq_refl)).
Defined.

(** C5 as stated fails: tracing is enabled with the override provider 7,
    metrics is enabled without override, and the metric exporter cannot be
    constructed; the run returns a nil pair, so no trace handle at all. *)
Lemma override_lost_when_metric_exporter_fails :
  @enableTracing natTypes
    (@newConfig natTypes (scripted metricExporterFails) [use overrideAndMetrics]) = true /\
  @sdkTracerProvider natTypes
    (@newConfig natTypes (scripted metricExporterFails) [use overrideAndMetrics]) =
    Some 7%nat /\
  (@NewOpenTelemetryProvider natTypes (scripted metricExporterFails)
     [use overrideAndMetrics]).1 =
    (None, Some (errorString "failed to create otlp metric exporter: connection refused")) /\
  ~ (exists p,
       (@NewOpenTelemetryProvider natTypes (scripted metricExporterFails)
          [use overrideAndMetrics]).1.1 = Some p /\
       @TracerProvider natTypes p = Some 7%nat).
Proof.
  repeat split. intros (p & Hp & _). discriminate Hp.
Qed.

(** C5, amended, on a run with the override provider 7 where every call
    succeeds. *)
Lemma override_trace_provider_witness :
  List.filter is_trace_construction
    (@NewOpenTelemetryProvider natTypes (scripted all_fine) [use overrideAndMetrics]).2 = [].
Proof.
  apply (@override_trace_provider natTypes (scripted all_fine)
           [use overrideAndMetrics] 7%nat); reflexivity.
Defined.

(** C10 on a run with tracing on and metrics off. *)
Lemma handles_follow_toggles_witness :
  (is_Some (Some 23%nat) <-> true = true) /\ (is_Some (@None nat) <-> false = true).
Proof.
  apply (@handles_follow_toggles natTypes (scripted all_fine) [use withResource]
           (@Build_OtelProvider natTypes (Some 23%nat) None)).
  reflexivity.
Defined.

(** C8 on a configuration carrying the resource 5, in a world where
    detection would fail. *)
Lemma prebuilt_resource_returned_witness :
  @newResource natTypes (scripted detectionFails) withResource = (Some 5%nat, []).
Proof.
  apply (@prebuilt_resource_returned natTypes (scripted detectionFails) withResource 5%nat).
  reflexivity.
Defined.

(** C9 on a run whose resource detection fails. *)
Lemma detection_failure_recovered_witness :
  @newResource natTypes (scripted detectionFails)
    (@newConfig natTypes (scripted detectionFails) [use (bothEnabled false false)]) =
  (Some 11%nat,
   [resource_New_called (1%nat : @context_Context natTypes)
      (@detection natTypes (bothEnabled false false));
    resource_Default_called]).
Proof.
  apply (@detection_failure_recovered natTypes (scripted detectionFails)
           [use (bothEnabled false false)] (errorString "conflicting Schema URL"));
    reflexivity.
Defined.

(** X2 on the trace-only pair with a failing trace shutdown. *)
Lemma Shutdown_error_was_reported_witness :
  In (errorString "flush timed out")
     (handled (@Shutdown natTypes (scripted traceShutdownFails) traceOnly 3%nat).2).
Proof.
  apply (@Shutdown_error_was_reported natTypes (scripted traceShutdownFails)
           traceOnly 3%nat (errorString "flush timed out")).
  reflexivity.
Defined.

(** X3 on the pair holding both providers, every call succeeding. *)
Lemma Shutdown_all_succeed_witness :
  @Shutdown natTypes (scripted all_fine) bothProviders 3%nat =
  (None, @owed_shutdowns natTypes bothProviders 3%nat).
Proof.
  apply (@Shutdown_all_succeed natTypes (scripted all_fine) bothProviders 3%nat);
    reflexivity.
Defined.

(** X5 on the meter-only pair with a failing meter shutdown. *)
Lemma Shutdown_meter_failure_returned_witness :
  (@Shutdown natTypes (scripted meterShutdownFails) meterOnly 3%nat).1 =
  Some (errorString "export canceled").
Proof.
  apply (@Shutdown_meter_failure_returned natTypes (scripted meterShutdownFails)
           meterOnly 3%nat 8%nat (errorString "export canceled")); reflexivity.
Defined.

(** X7 on a run with the override meter provider 8 where every call
    succeeds. *)
Lemma override_meter_provider_witness :
  List.filter is_metric_construction
    (@NewOpenTelemetryProvider natTypes (scripted all_fine) [use tracingAndOverride]).2 = [].
Proof.
  apply (@override_meter_provider natTypes (scripted all_fine)
           [use tracingAndOverride] 8%nat); reflexivity.
Defined.

(** X8 on a run with both providers pre-built, in a world where resource
    detection fails. *)
Lemma overrides_cannot_fail_witness :
  (@NewOpenTelemetryProvider natTypes (scripted detectionFails) [use allOverridden]).1 =
  (Some (@Build_OtelProvider natTypes (Some 7%nat) (Some 8%nat)), None).
Proof.
  rewrite (@overrides_cannot_fail natTypes (scripted detectionFails) [use allOverridden]).
  - reflexivity.
  - left. reflexivity.
  - intros _. exact (mk_is_Some _ _ eq_refl).
  - intros _. exact (mk_is_Some _ _ eq_refl).
Defined.

(** X9 on a run that builds both providers. *)
Lemma trace_pipeline_wiring_witness :
  exists exp : nat,
    In (@sdktrace_NewBatchSpanProcessor_called natTypes exp)
       (@NewOpenTelemetryProvider natTypes (scripted all_fine) [use plain]).2.
Proof.
  assert (Hin : In (@sdktrace_NewTracerProvider_called natTypes
                      [ @sdktrace_WithSampler natTypes 0%nat;
                        @sdktrace_WithResource natTypes (Some 10%nat);
                        @sdktrace_WithSpanProcessor natTypes 22%nat ])
                   (@NewOpenTelemetryProvider natTypes (scripted all_fine) [use plain]).2).
  { vm_compute. auto 10. }
  destruct (@trace_pipeline_wiring natTypes (scripted all_fine) [use plain] _ Hin)
    as (exp & _ & Hbsp & _).
  exists exp. exact Hbsp.
Defined.

(** X10 on a run that builds both providers. *)
Lemma metric_pipeline_wiring_witness :
  exists exp : nat,
    In (@metric_NewPeriodicReader_called natTypes exp [metric_WithInterval 15000000000])
       (@NewOpenTelemetryProvider natTypes (scripted all_fine) [use plain]).2.
Proof.
  assert (Hin : In (@metric_NewMeterProvider_called natTypes
                      [ @metric_WithReader natTypes 31%nat;
                        @metric_WithResource natTypes (Some 10%nat) ])
                   (@NewOpenTelemetryProvider natTypes (scripted all_fine) [use plain]).2).
  { vm_compute. auto 10. }
  destruct (@metric_pipeline_wiring natTypes (scripted all_fine) [use plain] _ Hin)
    as (exp & _ & Hreader & _).
  exists exp. exact Hreader.
Defined.

(** X13 on a run whose trace exporter cannot be constructed. *)
Lemma trace_failure_stops_the_run_witness :
  List.filter is_metric_construction
    (@NewOpenTelemetryProvider natTypes (scripted traceExporterFails) [use plain]).2 = [].
Proof.
  assert (Hf : @trace_exporter_failed natTypes (scripted traceExporterFails)
            (@NewOpenTelemetryProvider natTypes (scripted traceExporterFails) [use plain]).2
            (errorString "context deadline exceeded")).
  { exists 0%nat, 20%nat. split; [vm_compute; auto | reflexivity]. }
  exact (proj2 (@trace_failure_stops_the_run natTypes (scripted traceExporterFails)
                  [use plain] _ Hf)).
Defined.

(** X15 on a run whose metric exporter cannot be constructed. *)
Lemma metric_failure_drops_built_tracer_witness :
  (@NewOpenTelemetryProvider natTypes (scripted metricExporterFails) [use plain]).1.1 = None.
Proof.
  assert (Hf : @metric_exporter_failed natTypes (scripted metricExporterFails)
            (@NewOpenTelemetryProvider natTypes (scripted metricExporterFails) [use plain]).2
            (errorString "connection refused")).
  { exists 1%nat, []. split; [vm_compute; auto 10 | reflexivity]. }
  exact (proj2 (@metric_failure_drops_built_tracer natTypes (scripted metricExporterFails)
                  [use plain] _ Hf eq_refl eq_refl)).
Defined.

(** X17 on the pair of a tracing-only run. *)
Lemma Shutdown_of_initialized_witness :
  exists tp : nat,
    In (@TracerProvider_Shutdown_called natTypes tp 3%nat)
       (@Shutdown natTypes (scripted all_fine)
          (@Build_OtelProvider natTypes (Some 23%nat) None) 3%nat).2.
Proof.
  destruct (@Shutdown_of_initialized natTypes (scripted all_fine) [use withResource]
              (@Build_OtelProvider natTypes (Some 23%nat) None) 3%nat eq_refl)
    as [[Htrace _] _].
  exact (Htrace eq_refl).
Defined.

(** X18 on the pair of a run with both providers pre-built. *)
Lemma Shutdown_reaches_overrides_witness :
  In (@TracerProvider_Shutdown_called natTypes 7%nat 3%nat)
     (@Shutdown natTypes (scripted all_fine) bothProviders 3%nat).2 /\
  In (@MeterProvider_Shutdown_called natTypes 8%nat 3%nat)
     (@Shutdown natTypes (scripted all_fine) bothProviders 3%nat).2.
Proof.
  destruct (@Shutdown_reaches_overrides natTypes (scripted all_fine) [use allOverridden]
              bothProviders 3%nat eq_refl) as [Htrace Hmeter].
  split; [exact (Htrace 7%nat eq_refl eq_refl) | exact (Hmeter 8%nat eq_refl eq_refl)].
Defined.

(** X19 on a configuration without resource, detection succeeding. *)
Lemma newResource_calls_witness :
  @newResource natTypes (scripted all_fine) plain =
  (Some 10%nat,
   [@resource_New_called natTypes 1%nat (@detection natTypes plain)]).
Proof.
  destruct (@newResource_calls natTypes (scripted all_fine) plain) as (_ & _ & Hok).
  exact (Hok eq_refl eq_refl).
Defined.
